(** * ArcPayKit (Python SDK): the payment operations facade

    A shallow embedding of [arcpaykit/payments.py] (class [Payments]) and
    the properties its specification states about it.  Request bodies are
    Python dicts with string keys, modelled as [gmap string pyval]; the
    injected HTTP client is an interface whose [request] method may return
    a response or raise, and may change the outside world. *)

From Stdlib Require Import Ascii.
From stdpp Require Import base strings gmap list pretty.

Local Open Scope string_scope.

(** ** Python values stored in a request body *)

(** [Literal["USDC", "EURC"]], the annotation of [settlement_currency]. *)
Inductive settlement := USDC | EURC.

(** The values a [Dict[str, Any]] body of this module can hold: [None],
    [str], [int] and [bool]. *)
Inductive pyval :=
| PyNone
| PyStr (s : string)
| PyInt (z : Z)
| PyBool (b : bool).

#[global] Instance pyval_eq_dec : EqDecision pyval.
Proof. solve_decision. Defined.

(** A request body: [Dict[str, Any]]. *)
Abbreviation body := (gmap string pyval).

(** The Python object behind a typed argument.  [Optional[T]] is [T] or
    [None]: the Rocq [None] is Python's [None]. *)
Class ToPy (T : Type) := to_py : T -> pyval.

#[global] Instance str_to_py : ToPy string := PyStr.
#[global] Instance int_to_py : ToPy Z := PyInt.
#[global] Instance bool_to_py : ToPy bool := PyBool.
#[global] Instance settlement_to_py : ToPy settlement :=
  fun c => match c with USDC => PyStr "USDC" | EURC => PyStr "EURC" end.
#[global] Instance optional_to_py {T} `{ToPy T} : ToPy (option T) :=
  fun o => match o with Some x => to_py x | None => PyNone end.

(** The statement [if v is not None: data[k] = v]. *)
Definition setitem_if_not_none (k : string) (v : pyval) (data : body) : body :=
  match v with
  | PyNone => data
  | _ => <[k := v]> data
  end.

(** ** Calls, outcomes and the client interface *)

(** One call of [client.request]: the positional [path] and the keyword
    arguments [method] and [data]; [None] is a keyword the caller did not
    pass. *)
Record Call := mkCall {
  path : string;
  method : option string;
  data : option body
}.

(** A Python call either returns a value or raises. *)
Inductive outcome (E A : Type) :=
| Returned (a : A)
| Raised (e : E).
Arguments Returned {E A} a.
Arguments Raised {E A} e.

(** Computations over a world [W] (network, server) that may raise [E]. *)
Definition M (W E A : Type) : Type := W -> outcome E A * W.

#[global] Instance M_ret {W E} : MRet (M W E) :=
  fun A a w => (Returned a, w).

(** Sequencing: an exception raised by the first computation skips the
    rest and reaches the caller as it is. *)
#[global] Instance M_bind {W E} : MBind (M W E) :=
  fun A B k m w =>
    match m w with
    | (Returned a, w') => k a w'
    | (Raised e, w') => (Raised e, w')
    end.

(** The interface of [ArcPayClient] that [Payments] uses: one method,
    [request(path, method=..., data=...)], returning the decoded response
    [R] or raising [E]. *)
Class ArcPayClient (W E R : Type) :=
  request : string -> option string -> option body -> M W E R.

(** Modelled from the spec: the defaults of the keyword parameters of
    [ArcPayClient.request], declared in [arcpaykit/client.py], which is
    not among the sources.  The interface table of the spec gives
    retrieve, which passes only the path, as a GET without body fields. *)
Definition default_method : string := "GET".
Definition default_data : option body := None.

Definition effective_method (c : Call) : string :=
  default default_method (method c).
Definition effective_data (c : Call) : option body :=
  match data c with Some d => Some d | None => default_data end.

(** ** class Payments *)

Module Payments.
Section methods.
Context {W E R : Type}.

(** [self.client] *)
Context (client : ArcPayClient W E R).

(** The body built by [create], lines 56-82. *)
Definition create_data
    (amount merchant_wallet : string)
    (currency : option string)
    (settlement_currency : option settlement)
    (payment_asset : option string)
    (payment_chain_id : option Z)
    (conversion_path estimated_fees description customer_email : option string)
    (expires_in_minutes : option Z)
    (is_test gas_sponsored : option bool) : body :=
  let data : body :=
    {[ "amount" := to_py amount; "merchantWallet" := to_py merchant_wallet ]} in
  let data := setitem_if_not_none "currency" (to_py currency) data in
  let data := setitem_if_not_none "settlementCurrency" (to_py settlement_currency) data in
  let data := setitem_if_not_none "paymentAsset" (to_py payment_asset) data in
  let data := setitem_if_not_none "paymentChainId" (to_py payment_chain_id) data in
  let data := setitem_if_not_none "conversionPath" (to_py conversion_path) data in
  let data := setitem_if_not_none "estimatedFees" (to_py estimated_fees) data in
  let data := setitem_if_not_none "description" (to_py description) data in
  let data := setitem_if_not_none "customerEmail" (to_py customer_email) data in
  let data := setitem_if_not_none "expiresInMinutes" (to_py expires_in_minutes) data in
  let data := setitem_if_not_none "isTest" (to_py is_test) data in
  let data := setitem_if_not_none "gasSponsored" (to_py gas_sponsored) data in
  data.

Definition create
    (amount merchant_wallet : string)
    (currency : option string)
    (settlement_currency : option settlement)
    (payment_asset : option string)
    (payment_chain_id : option Z)
    (conversion_path estimated_fees description customer_email : option string)
    (expires_in_minutes : option Z)
    (is_test gas_sponsored : option bool) : M W E R :=
  let data :=
    create_data amount merchant_wallet currency settlement_currency
      payment_asset payment_chain_id conversion_path estimated_fees
      description customer_email expires_in_minutes is_test gas_sponsored in
  r ← request "/api/payments/create" (Some "POST") (Some data);
  mret r.

Definition retrieve (payment_id : string) : M W E R :=
  r ← request ("/api/payments/" ++ payment_id) None None;
  mret r.

(** The body built by [submit_tx], lines 121-132. *)
Definition submit_tx_data
    (payment_id tx_hash payer_wallet : string)
    (customer_email customer_name : option string)
    (gas_sponsored : option bool) : body :=
  let data : body :=
    {[ "paymentId" := to_py payment_id;
       "txHash" := to_py tx_hash;
       "payerWallet" := to_py payer_wallet ]} in
  let data := setitem_if_not_none "customerEmail" (to_py customer_email) data in
  let data := setitem_if_not_none "customerName" (to_py customer_name) data in
  let data := setitem_if_not_none "gasSponsored" (to_py gas_sponsored) data in
  data.

Definition submit_tx
    (payment_id tx_hash payer_wallet : string)
    (customer_email customer_name : option string)
    (gas_sponsored : option bool) : M W E R :=
  let data :=
    submit_tx_data payment_id tx_hash payer_wallet
      customer_email customer_name gas_sponsored in
  r ← request "/api/payments/submit-tx" (Some "POST") (Some data);
  mret r.

(** The body built by [confirm], lines 159-170. *)
Definition confirm_data
    (payment_id tx_hash payer_wallet : string)
    (customer_email customer_name : option string)
    (gas_sponsored : option bool) : body :=
  let data : body :=
    {[ "paymentId" := to_py payment_id;
       "txHash" := to_py tx_hash;
       "payerWallet" := to_py payer_wallet ]} in
  let data := setitem_if_not_none "customerEmail" (to_py customer_email) data in
  let data := setitem_if_not_none "customerName" (to_py customer_name) data in
  let data := setitem_if_not_none "gasSponsored" (to_py gas_sponsored) data in
  data.

Definition confirm
    (payment_id tx_hash payer_wallet : string)
    (customer_email customer_name : option string)
    (gas_sponsored : option bool) : M W E R :=
  let data :=
    confirm_data payment_id tx_hash payer_wallet
      customer_email customer_name gas_sponsored in
  r ← request "/api/payments/confirm" (Some "POST") (Some data);
  mret r.

(** The body built by [fail], lines 185-187. *)
Definition fail_data (payment_id : string) (reason : option string) : body :=
  let data : body := {[ "paymentId" := to_py payment_id ]} in
  let data := setitem_if_not_none "reason" (to_py reason) data in
  data.

Definition fail (payment_id : string) (reason : option string) : M W E R :=
  let data := fail_data payment_id reason in
  r ← request "/api/payments/fail" (Some "POST") (Some data);
  mret r.

(** The body built by [expire], line 201. *)
Definition expire_data (payment_id : string) : body :=
  {[ "paymentId" := to_py payment_id ]}.

Definition expire (payment_id : string) : M W E R :=
  let data := expire_data payment_id in
  r ← request "/api/payments/expire" (Some "POST") (Some data);
  mret r.

End methods.
End Payments.

(** ** Invocations: a method of [Payments] together with its arguments *)

(** [F] is the shape of an optional argument: [option] once the
    parameters are bound, [kwarg] at a call site. *)
Inductive invocation_ (F : Type -> Type) :=
| Create (amount merchant_wallet : string)
    (currency : F string)
    (settlement_currency : F settlement)
    (payment_asset : F string)
    (payment_chain_id : F Z)
    (conversion_path estimated_fees description customer_email : F string)
    (expires_in_minutes : F Z)
    (is_test gas_sponsored : F bool)
| Retrieve (payment_id : string)
| SubmitTx (payment_id tx_hash payer_wallet : string)
    (customer_email customer_name : F string)
    (gas_sponsored : F bool)
| Confirm (payment_id tx_hash payer_wallet : string)
    (customer_email customer_name : F string)
    (gas_sponsored : F bool)
| Fail (payment_id : string) (reason : F string)
| Expire (payment_id : string).

Arguments Create {F}.
Arguments Retrieve {F}.
Arguments SubmitTx {F}.
Arguments Confirm {F}.
Arguments Fail {F}.
Arguments Expire {F}.

(** A method applied to bound parameters, each optional one an
    [Optional[T]]. *)
Abbreviation invocation := (invocation_ option).

Definition invoke {W E R} (client : ArcPayClient W E R) (i : invocation) : M W E R :=
  match i with
  | Create amount merchant_wallet currency settlement_currency payment_asset
      payment_chain_id conversion_path estimated_fees description
      customer_email expires_in_minutes is_test gas_sponsored =>
      Payments.create client amount merchant_wallet currency settlement_currency
        payment_asset payment_chain_id conversion_path estimated_fees
        description customer_email expires_in_minutes is_test gas_sponsored
  | Retrieve payment_id => Payments.retrieve client payment_id
  | SubmitTx payment_id tx_hash payer_wallet customer_email customer_name gas_sponsored =>
      Payments.submit_tx client payment_id tx_hash payer_wallet
        customer_email customer_name gas_sponsored
  | Confirm payment_id tx_hash payer_wallet customer_email customer_name gas_sponsored =>
      Payments.confirm client payment_id tx_hash payer_wallet
        customer_email customer_name gas_sponsored
  | Fail payment_id reason => Payments.fail client payment_id reason
  | Expire payment_id => Payments.expire client payment_id
  end.

(** The optional parameters of the method invoked, as the signature names
    them, each with the object bound to it. *)
Definition optional_params (i : invocation) : list (string * pyval) :=
  match i with
  | Create _ _ currency settlement_currency payment_asset
      payment_chain_id conversion_path estimated_fees description
      customer_email expires_in_minutes is_test gas_sponsored =>
      [ ("currency", to_py currency);
        ("settlement_currency", to_py settlement_currency);
        ("payment_asset", to_py payment_asset);
        ("payment_chain_id", to_py payment_chain_id);
        ("conversion_path", to_py conversion_path);
        ("estimated_fees", to_py estimated_fees);
        ("description", to_py description);
        ("customer_email", to_py customer_email);
        ("expires_in_minutes", to_py expires_in_minutes);
        ("is_test", to_py is_test);
        ("gas_sponsored", to_py gas_sponsored) ]
  | Retrieve _ => []
  | SubmitTx _ _ _ customer_email customer_name gas_sponsored
  | Confirm _ _ _ customer_email customer_name gas_sponsored =>
      [ ("customer_email", to_py customer_email);
        ("customer_name", to_py customer_name);
        ("gas_sponsored", to_py gas_sponsored) ]
  | Fail _ reason => [ ("reason", to_py reason) ]
  | Expire _ => []
  end.

(** *** Call sites *)

(** A keyword argument at a call site: left out, or passed (possibly as
    an explicit [None]). *)
Inductive kwarg (T : Type) :=
| Omitted
| Passed (v : option T).
Arguments Omitted {T}.
Arguments Passed {T} v.

(** Binding of a parameter declared [p: Optional[T] = None]. *)
Definition bound {T} (a : kwarg T) : option T :=
  match a with
  | Omitted => None
  | Passed v => v
  end.

(** The same call site with every explicit [None] left out instead. *)
Definition without_explicit_none {T} (a : kwarg T) : kwarg T :=
  match a with
  | Passed None => Omitted
  | _ => a
  end.

Definition imap {F G : Type -> Type} (f : forall T, F T -> G T)
    (i : invocation_ F) : invocation_ G :=
  match i with
  | Create amount merchant_wallet currency settlement_currency payment_asset
      payment_chain_id conversion_path estimated_fees description
      customer_email expires_in_minutes is_test gas_sponsored =>
      Create amount merchant_wallet (f _ currency) (f _ settlement_currency)
        (f _ payment_asset) (f _ payment_chain_id) (f _ conversion_path)
        (f _ estimated_fees) (f _ description) (f _ customer_email)
        (f _ expires_in_minutes) (f _ is_test) (f _ gas_sponsored)
  | Retrieve payment_id => Retrieve payment_id
  | SubmitTx payment_id tx_hash payer_wallet customer_email customer_name gas_sponsored =>
      SubmitTx payment_id tx_hash payer_wallet
        (f _ customer_email) (f _ customer_name) (f _ gas_sponsored)
  | Confirm payment_id tx_hash payer_wallet customer_email customer_name gas_sponsored =>
      Confirm payment_id tx_hash payer_wallet
        (f _ customer_email) (f _ customer_name) (f _ gas_sponsored)
  | Fail payment_id reason => Fail payment_id (f _ reason)
  | Expire payment_id => Expire payment_id
  end.

(** A call as written by the caller, and the invocation it becomes once
    the defaults of the signature are filled in. *)
Abbreviation call_site := (invocation_ kwarg).

Definition bind_defaults : call_site -> invocation := imap (@bound).

(** ** Observing the requests a method issues *)

(** A client that records every call of [request] before handing it to
    the client it wraps. *)
Definition logged {W E R} (client : ArcPayClient W E R)
    : ArcPayClient (list Call * W) E R :=
  fun path method data '(log, w) =>
    let '(r, w') := @request _ _ _ client path method data w in
    (r, ((log ++ [mkCall path method data])%list, w')).

(** A client that answers every request with an empty response. *)
Definition null_client : ArcPayClient unit Empty_set unit :=
  fun _ _ _ w => (Returned (), w).

(** The calls of [request] made by an invocation, in order. *)
Definition issued (i : invocation) : list Call :=
  (invoke (logged null_client) i ([], ())).2.1.

(** ** The naming convention of the wire format *)

Definition upper (c : ascii) : ascii :=
  let n := nat_of_ascii c in
  if (97 <=? n)%nat && (n <=? 122)%nat then ascii_of_nat (n - 32) else c.

(** Snake-style to camel-style, as the spec words the transform from a
    parameter name to its wire name: each underscore is dropped and the
    letter after it is capitalised. *)
Fixpoint snake_to_camel (s : string) : string :=
  match s with
  | EmptyString => EmptyString
  | String "_"%char (String c rest) => String (upper c) (snake_to_camel rest)
  | String c rest => String c (snake_to_camel rest)
  end.

(** The segments of a path, split at every "/" as a router does. *)
Fixpoint segments_from (seg : string) (s : string) : list string :=
  match s with
  | EmptyString => [seg]
  | String c rest =>
      if Ascii.eqb c "/" then seg :: segments_from "" rest
      else segments_from (seg ++ String c "") rest
  end.

Definition segments : string -> list string := segments_from "".

(** The client's [request] method applied to a recorded call. *)
Definition perform {W E R} (client : ArcPayClient W E R) (c : Call) : M W E R :=
  @request _ _ _ client (path c) (method c) (data c).

(** A body none of whose keys maps to [None], that is, one that
    serialises without a JSON null. *)
Definition no_none (b : body) : Prop :=
  map_Forall (fun _ v => v <> PyNone) b.

(** ** The parameters behind a body *)

(** The required parameters that the method invoked puts in its body, as
    the signature names them, each with the object bound to it.  The
    [payment_id] of [retrieve] goes into the path, not into a body. *)
Definition required_body_params (i : invocation) : list (string * pyval) :=
  match i with
  | Create amount merchant_wallet _ _ _ _ _ _ _ _ _ _ _ =>
      [ ("amount", to_py amount); ("merchant_wallet", to_py merchant_wallet) ]
  | Retrieve _ => []
  | SubmitTx payment_id tx_hash payer_wallet _ _ _
  | Confirm payment_id tx_hash payer_wallet _ _ _ =>
      [ ("payment_id", to_py payment_id);
        ("tx_hash", to_py tx_hash);
        ("payer_wallet", to_py payer_wallet) ]
  | Fail payment_id _ => [ ("payment_id", to_py payment_id) ]
  | Expire payment_id => [ ("payment_id", to_py payment_id) ]
  end.

(** The parameters bound to something other than [None]. *)
Definition supplied (ps : list (string * pyval)) : list (string * pyval) :=
  filter (fun p => p.2 <> PyNone) ps.

(** A parameter under its wire name. *)
Definition wire (p : string * pyval) : string * pyval :=
  (snake_to_camel p.1, p.2).

(** The fields a request body is expected to hold: every required
    parameter and every supplied optional one, under their wire names. *)
Definition wire_fields (i : invocation) : list (string * pyval) :=
  ((wire <$> required_body_params i) ++ supplied (wire <$> optional_params i))%list.

(** One guarded assignment, on a (key, value) pair. *)
Definition assign (d : body) (p : string * pyval) : body :=
  setitem_if_not_none p.1 p.2 d.

(** ** Scripts around the facade: [example.py] and [test_arcpaykit.py] *)

(** The errors raised by code outside these sources ([ArcPay],
    [ArcPayClient], the network): whether [except Exception] catches one,
    and what [str(e)] gives for it. *)
Class PyError (E : Type) := {
  derives_from_Exception : E -> bool;
  error_str : E -> string
}.

(** What a script can raise: an outside error, or one of the built-in
    exceptions the statements of the scripts raise themselves. *)
Inductive pyexc (E : Type) :=
| OutsideError (e : E)
| KeyError (key : string)
| AssertionError
| AttributeError (message : string)
| SystemExit (code : Z).
Arguments OutsideError {E} e.
Arguments KeyError {E} key.
Arguments AssertionError {E}.
Arguments AttributeError {E} message.
Arguments SystemExit {E} code.

(** [except Exception] catches everything but what derives from
    [BaseException] alone, such as [SystemExit]. *)
Definition caught_as_Exception {E} `{PyError E} (x : pyexc E) : bool :=
  match x with
  | OutsideError e => derives_from_Exception e
  | SystemExit _ => false
  | _ => true
  end.

(** [str(e)], as the f-strings of the scripts format a caught error.  The
    keys of the scripts are plain identifiers, whose [repr] is the key
    between single quotes. *)
Definition exc_str {E} `{PyError E} (x : pyexc E) : string :=
  match x with
  | OutsideError e => error_str e
  | KeyError key => "'" ++ key ++ "'"
  | AssertionError => ""
  | AttributeError message => message
  | SystemExit code => pretty code
  end.

(** The state of a running script: the arguments of its [print] calls so
    far, and the outside world. *)
Record console (W : Type) := Console {
  stdout : list string;
  world : W
}.
Arguments Console {W} stdout world.
Arguments stdout {W} c.
Arguments world {W} c.

Definition print {W X} (line : string) : M (console W) X unit :=
  fun s => (Returned (), Console (stdout s ++ [line])%list (world s)).

Definition raise {S X A} (x : X) : M S X A :=
  fun s => (Raised x, s).

(** [try: body except Exception as e: handler(e)] *)
Definition try_except_Exception {S E A} `{PyError E}
    (body : M S (pyexc E) A) (handler : pyexc E -> M S (pyexc E) A)
    : M S (pyexc E) A :=
  fun s =>
    match body s with
    | (Returned a, s') => (Returned a, s')
    | (Raised x, s') =>
        if caught_as_Exception x then handler x s' else (Raised x, s')
    end.

(** A client used from a script: its errors are outside errors, and it
    leaves the output of the script alone. *)
Definition on_console {W E R} (client : ArcPayClient W E R)
    : ArcPayClient (console W) (pyexc E) R :=
  fun path method data s =>
    match @request _ _ _ client path method data (world s) with
    | (Returned r, w') => (Returned r, Console (stdout s) w')
    | (Raised e, w') => (Raised (OutsideError e), Console (stdout s) w')
    end.

(** [d[key]] on a dict. *)
Definition getitem {S E V} (d : gmap string V) (key : string)
    : M S (pyexc E) V :=
  fun s =>
    match d !! key with
    | Some v => (Returned v, s)
    | None => (Raised (KeyError key), s)
    end.

(** [assert cond] *)
Definition assert_ {S E} (cond : bool) : M S (pyexc E) unit :=
  if cond then mret () else raise AssertionError.

(** *** example.py, example 1 (lines 13-27) *)

Section example.
Context {W E V : Type} `{PyError E}.

(** [str] of a value of the response, as the f-strings format it. *)
Context (py_str : V -> string).

(** The client behind [arcpay.payments]. *)
Context (client : ArcPayClient W E (gmap string V)).

Definition example_create_payment : M (console W) (pyexc E) unit :=
  print "Creating a payment...";;
  try_except_Exception
    (payment ← Payments.create (on_console client)
                 "100.00" "0x742d35Cc6634C0532925a3b844Bc9e7595f0bEb"
                 (Some "USDC") None None None None None
                 (Some "Example payment") (Some "customer@example.com")
                 (Some 30%Z) None None;
     id ← getitem payment "id";
     print ("Payment created: " ++ py_str id);;
     checkout_url ← getitem payment "checkout_url";
     print ("Checkout URL: " ++ py_str checkout_url);;
     status ← getitem payment "status";
     print ("Status: " ++ py_str status))
    (fun e => print ("Error creating payment: " ++ exc_str e)).

(** The request example 1 is expected to make. *)
Definition example_request : Call :=
  mkCall "/api/payments/create" (Some "POST")
    (Some (list_to_map
             [ ("amount", PyStr "100.00");
               ("merchantWallet", PyStr "0x742d35Cc6634C0532925a3b844Bc9e7595f0bEb");
               ("currency", PyStr "USDC");
               ("description", PyStr "Example payment");
               ("customerEmail", PyStr "customer@example.com");
               ("expiresInMinutes", PyInt 30) ])).

(** The lines example 1 is expected to print for a response, after its
    banner: one line per key, up to the first key the response lacks,
    which gives the error line instead. *)
Definition example_lines (payment : gmap string V) : list string :=
  let missing key := "Error creating payment: '" ++ key ++ "'" in
  match payment !! "id" with
  | None => [ missing "id" ]
  | Some id =>
      ("Payment created: " ++ py_str id) ::
      match payment !! "checkout_url" with
      | None => [ missing "checkout_url" ]
      | Some checkout_url =>
          ("Checkout URL: " ++ py_str checkout_url) ::
          match payment !! "status" with
          | None => [ missing "status" ]
          | Some status => [ "Status: " ++ py_str status ]
          end
      end
  end.

End example.

(** *** test_arcpaykit.py *)

(** [ArcPay] and [ArcPayClient] are declared outside these sources.  The
    tests read two things of an [ArcPay] object: [arcpay.payments], which
    they compare with [None], and [arcpay.payments.client.base_url]. *)
Record PaymentsObj := { client_base_url : pyval }.
Record ArcPayObj := { payments : option PaymentsObj }.

(** [arcpay.payments.client.base_url]: on [None] the attribute access
    raises. *)
Definition payments_client_base_url {S E} (arcpay : ArcPayObj)
    : M S (pyexc E) pyval :=
  match payments arcpay with
  | Some p => mret (client_base_url p)
  | None => raise (AttributeError "'NoneType' object has no attribute 'client'")
  end.

(** [v == s] for a string literal [s]. *)
Definition eq_str (v : pyval) (s : string) : bool :=
  match v with
  | PyStr s' => bool_decide (s' = s)
  | _ => false
  end.

(** A test function: its [__name__] and its body. *)
Record test (S E : Type) := Test {
  name : string;
  run : M S (pyexc E) bool
}.
Arguments Test {S E} name run.
Arguments name {S E} t.
Arguments run {S E} t.

(** The newline of ["...tests...\n"]. *)
Definition newline : string := String (ascii_of_nat 10) EmptyString.

(** [str(v)], as an f-string formats [v]. *)
Definition str_of (v : pyval) : string :=
  match v with
  | PyNone => "None"
  | PyStr s => s
  | PyInt z => pretty z
  | PyBool true => "True"
  | PyBool false => "False"
  end.

Section tests.
Context {W E : Type} `{PyError E}.

(** The constructor [ArcPay(api_key, base_url=...)]. *)
Context (ArcPay : string -> option string -> M (console W) (pyexc E) ArcPayObj).

Definition test_import : M (console W) (pyexc E) bool :=
  print "[OK] Package imports successfully";;
  mret true.

Definition test_initialization : M (console W) (pyexc E) bool :=
  try_except_Exception
    (arcpay ← ArcPay "test-api-key" None;
     assert_ (bool_decide (payments arcpay <> None));;
     print "[OK] ArcPay initializes correctly";;
     mret true)
    (fun e =>
       print ("[FAIL] Failed to initialize ArcPay: " ++ exc_str e);;
       mret false).

Definition test_custom_base_url : M (console W) (pyexc E) bool :=
  try_except_Exception
    (arcpay ← ArcPay "test-api-key" (Some "http://localhost:3000");
     base_url ← payments_client_base_url arcpay;
     assert_ (eq_str base_url "http://localhost:3000");;
     print "[OK] Custom base URL works";;
     mret true)
    (fun e =>
       print ("[FAIL] Custom base URL test failed: " ++ exc_str e);;
       mret false).

(** The loop of [run_tests], lines 49-58, with its two counters. *)
Fixpoint run_loop (tests : list (test (console W) E)) (passed failed : nat)
    : M (console W) (pyexc E) (nat * nat) :=
  match tests with
  | [] => mret (passed, failed)
  | t :: tests =>
      '(passed, failed) ←
        try_except_Exception
          (ok ← run t;
           if ok : bool then mret (S passed, failed) else mret (passed, S failed))
          (fun e =>
             print ("[FAIL] Test " ++ name t ++ " raised exception: " ++ exc_str e);;
             mret (passed, S failed));
      print "";;
      run_loop tests passed failed
  end.

(** [run_tests], lines 36-66, on a list of tests. *)
Definition run_tests_on (tests : list (test (console W) E))
    : M (console W) (pyexc E) Z :=
  print ("Running ArcPayKit Python SDK tests..." ++ newline);;
  '(passed, failed) ← run_loop tests 0 0;
  print ("Results: " ++ pretty passed ++ " passed, " ++ pretty failed ++ " failed");;
  if bool_decide (0 < failed)
  then raise (SystemExit 1)
  else (print "All tests passed! [OK]";; mret 0%Z).

Definition run_tests : M (console W) (pyexc E) Z :=
  run_tests_on
    [ Test "test_import" test_import;
      Test "test_initialization" test_initialization;
      Test "test_custom_base_url" test_custom_base_url ].

(** *** test_pypi_install.py, the whole script *)

Definition test_pypi_install : M (console W) (pyexc E) unit :=
  print "[OK] ArcPayKit installed from PyPI!";;
  print "[OK] Package imports successfully";;
  arcpay ← ArcPay "test-api-key" None;
  base_url ← payments_client_base_url arcpay;
  print ("[OK] SDK initialized! Base URL: " ++ str_of base_url);;
  assert_ (bool_decide (payments arcpay <> None));;
  print "[OK] Payments object created";;
  print (newline ++ "[SUCCESS] ArcPayKit Python SDK is working correctly!");;
  print "Package is now available on PyPI: https://pypi.org/project/arcpaykit/".

End tests.

(** A test that raises nothing [except Exception] lets through. *)
Definition contained {S E} `{PyError E} (t : test S E) : Prop :=
  forall s x s', run t s = (Raised x, s') -> caught_as_Exception x = true.

(** HTTP status codes raised as errors, all of them [Exception]s. *)
#[global] Instance http_status_error : PyError nat := {|
  derives_from_Exception _ := true;
  error_str status := "HTTP " ++ pretty status
|}.

(** A constructor that never fails and keeps the base URL it is given. *)
Definition keeping_ArcPay (api_key : string) (base_url : option string)
    : M (console unit) (pyexc nat) ArcPayObj :=
  mret {| payments := Some {| client_base_url := to_py base_url |} |}.


(** A client that answers every request with an empty dict. *)
Definition empty_response_client : ArcPayClient unit nat (gmap string pyval) :=
  fun _ _ _ w => (Returned ∅, w).

(** A client whose every request fails with HTTP status 503. *)
Definition unavailable_client : ArcPayClient unit nat unit :=
  fun _ _ _ w => (Raised 503, w).

(** * Properties *)

(** ** The building blocks *)

Section setitem.
Implicit Types (k : string) (v : pyval) (d : body).

Lemma lookup_setitem_if_not_none k v d k' :
  setitem_if_not_none k v d !! k' =
    if decide (k = k')
    then (if decide (v = PyNone) then d !! k' else Some v)
    else d !! k'.
Proof.
  destruct v; cbn [setitem_if_not_none];
    repeat case_decide; simplify_eq; by rewrite ?lookup_insert_eq, ?lookup_insert_ne.
Qed.

Lemma lookup_setitem_if_not_none_eq k v d :
  setitem_if_not_none k v d !! k = if decide (v = PyNone) then d !! k else Some v.
Proof. rewrite lookup_setitem_if_not_none. by case_decide. Qed.

Lemma lookup_setitem_if_not_none_ne k v d k' :
  k <> k' -> setitem_if_not_none k v d !! k' = d !! k'.
Proof. intros. rewrite lookup_setitem_if_not_none. by case_decide. Qed.

Lemma setitem_if_not_none_None k d : setitem_if_not_none k PyNone d = d.
Proof. reflexivity. Qed.

Lemma setitem_if_not_none_insert k v d :
  v ≠ PyNone -> setitem_if_not_none k v d = <[k := v]> d.
Proof. by destruct v. Qed.
End setitem.

Example camel_payment_chain_id : snake_to_camel "payment_chain_id" = "paymentChainId".
Proof. reflexivity. Qed.

Example camel_is_test : snake_to_camel "is_test" = "isTest".
Proof. reflexivity. Qed.

(** What each method hands to [request]. *)
Section issued.
Lemma issued_create amount merchant_wallet currency settlement_currency
    payment_asset payment_chain_id conversion_path estimated_fees description
    customer_email expires_in_minutes is_test gas_sponsored :
  issued (Create amount merchant_wallet currency settlement_currency
            payment_asset payment_chain_id conversion_path estimated_fees
            description customer_email expires_in_minutes is_test gas_sponsored)
  = [ mkCall "/api/payments/create" (Some "POST")
        (Some (Payments.create_data amount merchant_wallet currency
                 settlement_currency payment_asset payment_chain_id
                 conversion_path estimated_fees description customer_email
                 expires_in_minutes is_test gas_sponsored)) ].
Proof. reflexivity. Qed.

Lemma issued_retrieve payment_id :
  issued (Retrieve payment_id) = [ mkCall ("/api/payments/" ++ payment_id) None None ].
Proof. reflexivity. Qed.

Lemma issued_submit_tx payment_id tx_hash payer_wallet customer_email customer_name gas_sponsored :
  issued (SubmitTx payment_id tx_hash payer_wallet customer_email customer_name gas_sponsored)
  = [ mkCall "/api/payments/submit-tx" (Some "POST")
        (Some (Payments.submit_tx_data payment_id tx_hash payer_wallet
                 customer_email customer_name gas_sponsored)) ].
Proof. reflexivity. Qed.

Lemma issued_confirm payment_id tx_hash payer_wallet customer_email customer_name gas_sponsored :
  issued (Confirm payment_id tx_hash payer_wallet customer_email customer_name gas_sponsored)
  = [ mkCall "/api/payments/confirm" (Some "POST")
        (Some (Payments.confirm_data payment_id tx_hash payer_wallet
                 customer_email customer_name gas_sponsored)) ].
Proof. reflexivity. Qed.

Lemma issued_fail payment_id reason :
  issued (Fail payment_id reason)
  = [ mkCall "/api/payments/fail" (Some "POST")
        (Some (Payments.fail_data payment_id reason)) ].
Proof. reflexivity. Qed.

Lemma issued_expire payment_id :
  issued (Expire payment_id)
  = [ mkCall "/api/payments/expire" (Some "POST")
        (Some (Payments.expire_data payment_id)) ].
Proof. reflexivity. Qed.
End issued.

(** Rewrites a lookup in a body down to its dict literal and settles the
    comparisons of key literals. *)
Ltac body_lookup :=
  repeat first
    [ rewrite lookup_setitem_if_not_none_ne by discriminate
    | rewrite lookup_setitem_if_not_none_eq ];
  rewrite ?lookup_insert_eq, ?lookup_insert_ne, ?lookup_singleton_eq,
    ?lookup_singleton_ne, ?lookup_empty by discriminate;
  repeat (case_decide; try congruence);
  try done.

(** ** create *)

Lemma create_data_amount amount merchant_wallet currency settlement_currency
    payment_asset payment_chain_id conversion_path estimated_fees description
    customer_email expires_in_minutes is_test gas_sponsored :
  Payments.create_data amount merchant_wallet currency settlement_currency
    payment_asset payment_chain_id conversion_path estimated_fees description
    customer_email expires_in_minutes is_test gas_sponsored !! "amount"
  = Some (PyStr amount).
Proof. unfold Payments.create_data. body_lookup. Qed.

Lemma create_data_merchantWallet amount merchant_wallet currency settlement_currency
    payment_asset payment_chain_id conversion_path estimated_fees description
    customer_email expires_in_minutes is_test gas_sponsored :
  Payments.create_data amount merchant_wallet currency settlement_currency
    payment_asset payment_chain_id conversion_path estimated_fees description
    customer_email expires_in_minutes is_test gas_sponsored !! "merchantWallet"
  = Some (PyStr merchant_wallet).
Proof. unfold Payments.create_data. body_lookup. Qed.

(** C2: [create(amount="100.00", merchant_wallet="0xabc")] with no optional
    argument issues one POST to /api/payments/create whose body is exactly
    the two-key dict of amount and merchantWallet; and whatever the
    arguments of [create], its request is a POST to that path whose body
    holds [amount] under "amount" and [merchant_wallet] under
    "merchantWallet". *)
Theorem create_required_fields :
  (let b : body := {[ "amount" := PyStr "100.00"; "merchantWallet" := PyStr "0xabc" ]} in
   issued (Create "100.00" "0xabc" None None None None None None None None None None None)
     = [ mkCall "/api/payments/create" (Some "POST") (Some b) ]
   /\ dom b = {[ "amount"; "merchantWallet" ]}
   /\ size b = 2)
  /\ (forall amount merchant_wallet currency settlement_currency payment_asset
         payment_chain_id conversion_path estimated_fees description
         customer_email expires_in_minutes is_test gas_sponsored,
       exists b : body,
         issued (Create amount merchant_wallet currency settlement_currency
                   payment_asset payment_chain_id conversion_path estimated_fees
                   description customer_email expires_in_minutes is_test
                   gas_sponsored)
           = [ mkCall "/api/payments/create" (Some "POST") (Some b) ]
         /\ b !! "amount" = Some (PyStr amount)
         /\ b !! "merchantWallet" = Some (PyStr merchant_wallet)).
Proof.
  split.
  - cbn zeta. split; [reflexivity|]. split.
    + by rewrite dom_insert_L, dom_singleton_L.
    + rewrite map_size_insert_None by done. by rewrite map_size_singleton.
  - intros. eexists. split; [apply issued_create|].
    split; [apply create_data_amount | apply create_data_merchantWallet].
Qed.

(** ** submit_tx and confirm *)

(** C4: [submit_tx(payment_id="pay_1", tx_hash="0xhash",
    payer_wallet="0xpayer")] issues one POST to /api/payments/submit-tx
    whose body is exactly the three-key dict of paymentId, txHash and
    payerWallet. *)
Theorem submit_tx_required_only :
  let b : body :=
    {[ "paymentId" := PyStr "pay_1";
       "txHash" := PyStr "0xhash";
       "payerWallet" := PyStr "0xpayer" ]} in
  issued (SubmitTx "pay_1" "0xhash" "0xpayer" None None None)
    = [ mkCall "/api/payments/submit-tx" (Some "POST") (Some b) ]
  /\ dom b = {[ "paymentId"; "txHash"; "payerWallet" ]}
  /\ size b = 3
  /\ b !! "customerEmail" = None
  /\ b !! "customerName" = None
  /\ b !! "gasSponsored" = None.
Proof.
  cbn zeta. split; [reflexivity|]. split.
  { by rewrite !dom_insert_L, dom_singleton_L, (assoc_L (∪)). }
  split.
  { rewrite !map_size_insert_None, map_size_singleton; [done| |].
    - by rewrite lookup_singleton_ne.
    - by rewrite lookup_insert_ne, lookup_singleton_ne. }
  repeat split; body_lookup.
Qed.

(** C3: on the same six arguments [submit_tx] and [confirm] build the same
    body and both POST it, [submit_tx] to /api/payments/submit-tx and
    [confirm] to /api/payments/confirm; the two paths differ, so the two
    requests do. *)
Theorem submit_tx_confirm_same_shape
    (payment_id tx_hash payer_wallet : string)
    (customer_email customer_name : option string)
    (gas_sponsored : option bool) :
  exists b : body,
    issued (SubmitTx payment_id tx_hash payer_wallet customer_email customer_name gas_sponsored)
      = [ mkCall "/api/payments/submit-tx" (Some "POST") (Some b) ]
    /\ issued (Confirm payment_id tx_hash payer_wallet customer_email customer_name gas_sponsored)
      = [ mkCall "/api/payments/confirm" (Some "POST") (Some b) ]
    /\ issued (SubmitTx payment_id tx_hash payer_wallet customer_email customer_name gas_sponsored)
      <> issued (Confirm payment_id tx_hash payer_wallet customer_email customer_name gas_sponsored).
Proof.
  exists (Payments.submit_tx_data payment_id tx_hash payer_wallet
            customer_email customer_name gas_sponsored).
  rewrite issued_submit_tx, issued_confirm.
  split; [reflexivity|]. split; [reflexivity|].
  intros [= Hpath].
Qed.

(** ** fail *)

(** C6: [fail(payment_id)] POSTs the one-key dict of paymentId to
    /api/payments/fail, and [fail(payment_id, reason)] POSTs the two-key
    dict of paymentId and reason to the same path. *)
Theorem fail_body (payment_id reason : string) :
  (let b : body := {[ "paymentId" := PyStr payment_id ]} in
   issued (Fail payment_id None) = [ mkCall "/api/payments/fail" (Some "POST") (Some b) ]
   /\ dom b = {[ "paymentId" ]})
  /\ (let b : body := {[ "paymentId" := PyStr payment_id; "reason" := PyStr reason ]} in
      issued (Fail payment_id (Some reason))
        = [ mkCall "/api/payments/fail" (Some "POST") (Some b) ]
      /\ dom b = {[ "paymentId"; "reason" ]}
      /\ size b = 2).
Proof.
  cbn zeta. split; [split|split; [|split]].
  - reflexivity.
  - by rewrite dom_singleton_L.
  - rewrite issued_fail. unfold Payments.fail_data. cbn [to_py optional_to_py str_to_py setitem_if_not_none].
    by rewrite insert_singleton_ne.
  - by rewrite dom_insert_L, dom_singleton_L.
  - rewrite map_size_insert_None, map_size_singleton; [done|].
    by rewrite lookup_singleton_ne.
Qed.

(** ** retrieve *)

Lemma append_empty (s : string) : s ++ "" = s.
Proof.
  induction s as [|c s IH]; [done|].
  change (String c (s ++ "") = String c s). by f_equal.
Qed.

Lemma bind_ret_id {W E A} (m : M W E A) (w : W) : (r ← m; mret r) w = m w.
Proof.
  unfold mbind, M_bind, mret, M_ret.
  by destruct (m w) as [[r|e] w'].
Qed.

(** C5: [retrieve(payment_id)] makes one request, passing only the path,
    which contains the identifier as it is; no method and no body are
    passed, so the request goes out with the client's defaults, a GET
    without body; and what the client returns is what [retrieve] returns. *)
Theorem retrieve_get_passthrough (payment_id : string) :
  let c := mkCall ("/api/payments/" ++ payment_id) None None in
  issued (Retrieve payment_id) = [c]
  /\ (exists before after, path c = before ++ payment_id ++ after)
  /\ effective_method c = "GET"
  /\ effective_data c = None
  /\ (forall W E R (client : ArcPayClient W E R) (w : W),
        Payments.retrieve client payment_id w = perform client c w)
  /\ issued (Retrieve "pay_123") = [ mkCall "/api/payments/pay_123" None None ].
Proof.
  cbn zeta. split; [reflexivity|]. split.
  { exists "/api/payments/", "". cbn [path]. by rewrite append_empty. }
  repeat split.
  intros W E R client w. unfold Payments.retrieve, perform. apply bind_ret_id.
Qed.

(** C10: the path requested by [retrieve] is "/api/payments/" followed by
    the identifier, character for character, whatever the identifier is:
    the empty identifier gives "/api/payments/", and every "/" inside the
    identifier is a separator of the requested route. *)
Theorem retrieve_path_verbatim (payment_id : string) :
  (exists c, issued (Retrieve payment_id) = [c]
     /\ path c = "/api/payments/" ++ payment_id
     /\ segments (path c) = "" :: "api" :: "payments" :: segments payment_id)
  /\ issued (Retrieve "") = [ mkCall "/api/payments/" None None ]
  /\ issued (Retrieve "pay_1/refund") = [ mkCall "/api/payments/pay_1/refund" None None ]
  /\ segments "/api/payments/pay_1" = [ ""; "api"; "payments"; "pay_1" ]
  /\ segments "/api/payments/pay_1/refund" = [ ""; "api"; "payments"; "pay_1"; "refund" ].
Proof.
  split; [|by repeat split].
  eexists. split; [apply issued_retrieve|]. by split.
Qed.

(** ** Every method: one request, errors untouched *)

Lemma invoke_perform {W E R} (client : ArcPayClient W E R) (i : invocation) (c : Call) (w : W) :
  c ∈ issued i -> invoke client i w = perform client c w.
Proof.
  intros Hc. destruct i; cbn [invoke];
    [ rewrite issued_create in Hc | rewrite issued_retrieve in Hc
    | rewrite issued_submit_tx in Hc | rewrite issued_confirm in Hc
    | rewrite issued_fail in Hc | rewrite issued_expire in Hc ];
    apply list_elem_of_singleton in Hc as ->; apply bind_ret_id.
Qed.

Lemma issued_singleton (i : invocation) : exists c, issued i = [c].
Proof. destruct i; eexists; reflexivity. Qed.

(** C7: whatever method is invoked with whatever arguments, if the request
    it makes raises [e], the method raises that same [e], leaves the world
    as the failed request left it, and returns nothing. *)
Theorem errors_propagate {W E R} (client : ArcPayClient W E R)
    (i : invocation) (c : Call) (w w' : W) (e : E) :
  c ∈ issued i ->
  perform client c w = (Raised e, w') ->
  invoke client i w = (Raised e, w').
Proof. intros Hc Hraise. by rewrite (invoke_perform client i c w Hc). Qed.

Lemma errors_propagate_witness :
  invoke unavailable_client (Expire "pay_1") () = (Raised 503, ()).
Proof.
  apply (errors_propagate unavailable_client (Expire "pay_1")
           (mkCall "/api/payments/expire" (Some "POST")
              (Some (Payments.expire_data "pay_1")))).
  - rewrite issued_expire. apply list_elem_of_here.
  - reflexivity.
Defined.

(** C8: whatever method is invoked with whatever arguments, on a client
    that records its calls the record grows by exactly one call, and the
    outcome of the method is the outcome of that one call, whether it
    returned or raised. *)
Theorem one_request_per_call {W E R} (client : ArcPayClient W E R)
    (i : invocation) (w : W) (log : list Call) :
  exists c : Call,
    issued i = [c]
    /\ invoke (logged client) i (log, w)
        = (let '(r, w') := perform client c w in (r, ((log ++ [c])%list, w')))
    /\ invoke client i w = perform client c w.
Proof.
  destruct (issued_singleton i) as [c Hc]. exists c.
  assert (c ∈ issued i) as Hin by (rewrite Hc; apply list_elem_of_here).
  split; [done|]. split; [|by apply invoke_perform].
  rewrite (invoke_perform (logged client) i c (log, w) Hin).
  by destruct c.
Qed.

(** ** Optional parameters *)

(** The wire name of a parameter name given as a literal. *)
Ltac wire_name :=
  repeat match goal with
  | |- context [snake_to_camel ?s] =>
      let k := eval vm_compute in (snake_to_camel s) in
      change (snake_to_camel s) with k
  end.

Lemma optional_key_lookup (i : invocation) (name : string) (v : pyval) :
  (name, v) ∈ optional_params i ->
  exists p m (b : body),
    issued i = [ mkCall p m (Some b) ]
    /\ b !! snake_to_camel name = if decide (v = PyNone) then None else Some v.
Proof.
  intros Hin.
  destruct i; cbn [optional_params] in Hin;
    repeat (apply elem_of_cons in Hin as [[= -> ->] | Hin]);
    try (by apply elem_of_nil in Hin);
    (eexists _, _, _; split; [reflexivity|]); wire_name;
    unfold Payments.create_data, Payments.submit_tx_data,
      Payments.confirm_data, Payments.fail_data;
    body_lookup.
Qed.

(** C1: for every method and each of its optional parameters, the body of
    the request holds the camel-case wire name of the parameter exactly
    when the object bound to the parameter is not [None]; the key then
    maps to that object, and otherwise the body has no such key. *)
Theorem optional_key_presence (i : invocation) (name : string) (v : pyval) :
  (name, v) ∈ optional_params i ->
  exists p m (b : body),
    issued i = [ mkCall p m (Some b) ]
    /\ (is_Some (b !! snake_to_camel name) <-> v <> PyNone)
    /\ (v <> PyNone -> b !! snake_to_camel name = Some v)
    /\ (v = PyNone -> b !! snake_to_camel name = None).
Proof.
  intros Hin. destruct (optional_key_lookup i name v Hin) as (p & m & b & Hi & Hb).
  exists p, m, b. split; [done|]. rewrite Hb.
  case_decide; repeat split; try done; try (by intros []); by eexists.
Qed.

Lemma optional_key_presence_witness :
  exists p m (b : body),
    issued (Fail "pay_1" (Some "card declined")) = [ mkCall p m (Some b) ]
    /\ (is_Some (b !! snake_to_camel "reason") <-> PyStr "card declined" <> PyNone)
    /\ (PyStr "card declined" <> PyNone ->
        b !! snake_to_camel "reason" = Some (PyStr "card declined"))
    /\ (PyStr "card declined" = PyNone -> b !! snake_to_camel "reason" = None).
Proof.
  apply (optional_key_presence (Fail "pay_1" (Some "card declined"))
           "reason" (PyStr "card declined")).
  simpl. apply list_elem_of_here.
Defined.

(** ** No [None] in a body *)

Lemma setitem_if_not_none_no_none (k : string) (v : pyval) (d : body) :
  no_none d -> no_none (setitem_if_not_none k v d).
Proof.
  intros Hd. destruct v; cbn [setitem_if_not_none]; [done|..];
    by apply map_Forall_insert_2.
Qed.

Ltac no_none_literal :=
  repeat (apply map_Forall_insert_2; [done|]);
  first [ by apply map_Forall_singleton | apply map_Forall_empty ].

Lemma issued_no_none (i : invocation) (c : Call) (b : body) :
  c ∈ issued i -> data c = Some b -> no_none b.
Proof.
  intros Hc Hb.
  destruct i;
    [ rewrite issued_create in Hc | rewrite issued_retrieve in Hc
    | rewrite issued_submit_tx in Hc | rewrite issued_confirm in Hc
    | rewrite issued_fail in Hc | rewrite issued_expire in Hc ];
    apply list_elem_of_singleton in Hc as ->; cbn [data] in Hb; simplify_eq;
    unfold Payments.create_data, Payments.submit_tx_data,
      Payments.confirm_data, Payments.fail_data, Payments.expire_data;
    cbn zeta; repeat apply setitem_if_not_none_no_none; no_none_literal.
Qed.

Lemma bound_without_explicit_none {T} (a : kwarg T) :
  bound (without_explicit_none a) = bound a.
Proof. by destruct a as [|[x|]]. Qed.

Lemma bind_defaults_without_explicit_none (s : call_site) :
  bind_defaults (imap (@without_explicit_none) s) = bind_defaults s.
Proof.
  destruct s; unfold bind_defaults; cbn [imap];
    by rewrite ?bound_without_explicit_none.
Qed.

(** C9: whatever method is invoked with whatever arguments, no key of the
    body of its request maps to [None]; and a call site that passes [None]
    for optional parameters issues the same request as the call site that
    leaves those parameters out. *)
Theorem none_is_absence :
  (forall (i : invocation) (c : Call) (b : body) (k : string),
     c ∈ issued i -> data c = Some b -> b !! k <> Some PyNone)
  /\ (forall s : call_site,
        issued (bind_defaults (imap (@without_explicit_none) s))
        = issued (bind_defaults s))
  /\ issued (bind_defaults (Fail "pay_1" (Passed None)))
     = issued (bind_defaults (Fail "pay_1" Omitted)).
Proof.
  split; [|split].
  - intros i c b k Hc Hb Hk.
    by apply (issued_no_none i c b Hc Hb k PyNone Hk).
  - intros s. by rewrite bind_defaults_without_explicit_none.
  - reflexivity.
Qed.

Lemma none_is_absence_witness :
  Payments.fail_data "pay_1" None !! "reason" <> Some PyNone.
Proof.
  apply (proj1 none_is_absence (Fail "pay_1" None)
           (mkCall "/api/payments/fail" (Some "POST")
              (Some (Payments.fail_data "pay_1" None)))).
  - rewrite issued_fail. apply list_elem_of_here.
  - reflexivity.
Defined.


(** * Further properties of [Payments] *)

(** ** The whole body *)

Lemma supplied_cons (p : string * pyval) (ps : list (string * pyval)) :
  supplied (p :: ps) = if decide (p.2 = PyNone) then supplied ps else p :: supplied ps.
Proof.
  unfold supplied. rewrite filter_cons.
  destruct (decide (p.2 <> PyNone)) as [Hp|Hp]; by case_decide.
Qed.

(** A chain of guarded assignments to fresh, distinct keys adds exactly
    the supplied pairs. *)
Lemma foldl_assign (opts : list (string * pyval)) (d : body) :
  NoDup opts.*1 ->
  (forall k, k ∈ opts.*1 -> d !! k = None) ->
  foldl assign d opts = d ∪ list_to_map (supplied opts).
Proof.
  revert d. induction opts as [|[k v] opts IH]; intros d Hnd Hfresh.
  { cbn. by rewrite (right_id_L ∅ (∪)). }
  rewrite fmap_cons in Hnd. apply NoDup_cons in Hnd as [Hk Hnd].
  cbn [foldl]. rewrite IH; [|done|].
  - rewrite supplied_cons. unfold assign. cbn [fst snd].
    case_decide as Hv; [by subst|].
    rewrite setitem_if_not_none_insert by done.
    rewrite list_to_map_cons, <-insert_union_l.
    rewrite insert_union_r; [done|]. apply Hfresh. rewrite fmap_cons. left.
  - intros k' Hk'. unfold assign. cbn [fst snd].
    rewrite lookup_setitem_if_not_none.
    assert (d !! k' = None) as -> by (apply Hfresh; rewrite fmap_cons; by right).
    case_decide; [by subst|done].
Qed.

Lemma build_body (req opts : list (string * pyval)) :
  NoDup ((req ++ opts)%list).*1 ->
  foldl assign (list_to_map req) opts = list_to_map (req ++ supplied opts)%list.
Proof.
  rewrite fmap_app. intros (Hreq & Hdisj & Hopts)%NoDup_app.
  rewrite foldl_assign, list_to_map_app; [done..|].
  intros k Hk. apply not_elem_of_list_to_map_1. intros Hk'. by apply (Hdisj k).
Qed.

(** The keys any one method can write are pairwise distinct. *)
Lemma wire_keys_NoDup (i : invocation) :
  NoDup (((wire <$> required_body_params i) ++ (wire <$> optional_params i))%list).*1.
Proof. destruct i; cbn; compute_done. Qed.

Lemma data_is_wire_fields (i : invocation) :
  match i with
  | Create amount merchant_wallet currency settlement_currency payment_asset
      payment_chain_id conversion_path estimated_fees description
      customer_email expires_in_minutes is_test gas_sponsored =>
      Payments.create_data amount merchant_wallet currency settlement_currency
        payment_asset payment_chain_id conversion_path estimated_fees
        description customer_email expires_in_minutes is_test gas_sponsored
  | Retrieve _ => ∅
  | SubmitTx payment_id tx_hash payer_wallet customer_email customer_name gas_sponsored =>
      Payments.submit_tx_data payment_id tx_hash payer_wallet
        customer_email customer_name gas_sponsored
  | Confirm payment_id tx_hash payer_wallet customer_email customer_name gas_sponsored =>
      Payments.confirm_data payment_id tx_hash payer_wallet
        customer_email customer_name gas_sponsored
  | Fail payment_id reason => Payments.fail_data payment_id reason
  | Expire payment_id => Payments.expire_data payment_id
  end = list_to_map (wire_fields i).
Proof.
  unfold wire_fields. rewrite <-build_body by apply wire_keys_NoDup.
  destruct i;
    cbn [required_body_params optional_params fmap list_fmap foldl];
    unfold assign, wire; cbn [fst snd]; wire_name;
    rewrite ?list_to_map_cons, ?list_to_map_nil, ?insert_empty;
    reflexivity.
Qed.

(** X1: for every method other than [retrieve] and for all arguments, the
    body of the request is exactly the dict of the required parameters
    and of the optional parameters bound to something other than [None],
    each under its camel-case wire name: nothing more, nothing less.
    [retrieve] passes no body at all. *)
Theorem body_is_wire_fields (i : invocation) :
  exists p m,
    issued i =
      [ mkCall p m
          match i with
          | Retrieve _ => None
          | _ => Some (list_to_map (wire_fields i))
          end ].
Proof.
  pose proof (data_is_wire_fields i) as Hd.
  destruct i; rewrite <-?Hd; eexists _, _; reflexivity.
Qed.

(** ** The size of a body *)

Lemma wire_fields_NoDup (i : invocation) : NoDup (wire_fields i).*1.
Proof.
  eapply sublist_NoDup; [apply wire_keys_NoDup|].
  unfold wire_fields. apply fmap_sublist, sublist_app; [done|].
  apply sublist_filter.
Qed.

Lemma supplied_wire (ps : list (string * pyval)) :
  supplied (wire <$> ps) = wire <$> supplied ps.
Proof.
  induction ps as [|p ps IH]; [done|].
  rewrite fmap_cons, !supplied_cons, IH. cbn [wire snd].
  by case_decide.
Qed.

Lemma length_wire_fields (i : invocation) :
  length (wire_fields i)
  = length (required_body_params i) + length (supplied (optional_params i)).
Proof.
  unfold wire_fields.
  by rewrite length_app, supplied_wire, !length_fmap.
Qed.

Lemma issued_data (i : invocation) (c : Call) (b : body) :
  c ∈ issued i -> data c = Some b -> b = list_to_map (wire_fields i).
Proof.
  intros Hc Hb. pose proof (data_is_wire_fields i) as Hd.
  destruct i;
    rewrite ?issued_create, ?issued_retrieve, ?issued_submit_tx,
      ?issued_confirm, ?issued_fail, ?issued_expire in Hc;
    apply list_elem_of_singleton in Hc as ->; cbn [data] in Hb; congruence.
Qed.

(** X2: the body of a request has as many keys as the method has required
    body parameters plus optional parameters bound to something other
    than [None]; so between 2 and 13 keys for [create], between 3 and 6
    for [submit_tx] and [confirm], 1 or 2 for [fail], and 1 for
    [expire]. *)
Theorem body_size (i : invocation) (c : Call) (b : body) :
  c ∈ issued i ->
  data c = Some b ->
  size b = length (required_body_params i) + length (supplied (optional_params i))
  /\ length (required_body_params i) <= size b
  /\ size b <= length (required_body_params i) + length (optional_params i).
Proof.
  intros Hc Hb. rewrite (issued_data i c b Hc Hb).
  rewrite map_size_list_to_map by apply wire_fields_NoDup.
  rewrite length_wire_fields. split; [done|].
  pose proof (length_filter (fun p : string * pyval => p.2 <> PyNone)
                (optional_params i)) as Hle.
  unfold supplied. lia.
Qed.

Lemma body_size_witness :
  size (Payments.fail_data "pay_1" (Some "card declined")) = 2
  /\ 1 <= size (Payments.fail_data "pay_1" (Some "card declined"))
  /\ size (Payments.fail_data "pay_1" (Some "card declined")) <= 2.
Proof.
  apply (body_size (Fail "pay_1" (Some "card declined"))
           (mkCall "/api/payments/fail" (Some "POST")
              (Some (Payments.fail_data "pay_1" (Some "card declined"))))).
  - rewrite issued_fail. apply list_elem_of_here.
  - reflexivity.
Defined.

(** ** The request determines the call *)

Lemma carried_inj (v v' : pyval) :
  (if decide (v = PyNone) then None else Some v)
  = (if decide (v' = PyNone) then None else Some v') ->
  v = v'.
Proof. repeat case_decide; congruence. Qed.

Lemma optional_str_inj (o o' : option string) : to_py o = to_py o' -> o = o'.
Proof. destruct o, o'; compute; congruence. Qed.

Lemma optional_int_inj (o o' : option Z) : to_py o = to_py o' -> o = o'.
Proof. destruct o, o'; compute; congruence. Qed.

Lemma optional_bool_inj (o o' : option bool) : to_py o = to_py o' -> o = o'.
Proof. destruct o, o'; compute; congruence. Qed.

Lemma optional_settlement_inj (o o' : option settlement) :
  to_py o = to_py o' -> o = o'.
Proof. destruct o as [[]|], o' as [[]|]; compute; congruence. Qed.

(** From the equality [Hb] of two bodies, the equality of the arguments
    written under key [k]. *)
Ltac same_key Hb k :=
  let Hk := fresh "Hk" in
  pose proof (f_equal (fun b : body => b !! k) Hb) as Hk; cbn beta in Hk;
  repeat first
    [ rewrite lookup_setitem_if_not_none_ne in Hk by discriminate
    | rewrite lookup_setitem_if_not_none_eq in Hk ];
  rewrite ?lookup_insert_eq, ?lookup_insert_ne, ?lookup_singleton_eq,
    ?lookup_singleton_ne in Hk by discriminate;
  first
    [ apply carried_inj in Hk;
      first [ apply optional_str_inj in Hk | apply optional_int_inj in Hk
            | apply optional_bool_inj in Hk | apply optional_settlement_inj in Hk ]
    | injection Hk as Hk ].

Lemma create_data_inj
    amount merchant_wallet currency settlement_currency payment_asset
    payment_chain_id conversion_path estimated_fees description
    customer_email expires_in_minutes is_test gas_sponsored
    amount' merchant_wallet' currency' settlement_currency' payment_asset'
    payment_chain_id' conversion_path' estimated_fees' description'
    customer_email' expires_in_minutes' is_test' gas_sponsored' :
  Payments.create_data amount merchant_wallet currency settlement_currency
    payment_asset payment_chain_id conversion_path estimated_fees description
    customer_email expires_in_minutes is_test gas_sponsored
  = Payments.create_data amount' merchant_wallet' currency' settlement_currency'
      payment_asset' payment_chain_id' conversion_path' estimated_fees'
      description' customer_email' expires_in_minutes' is_test' gas_sponsored' ->
  Create (F:=option) amount merchant_wallet currency settlement_currency
    payment_asset payment_chain_id conversion_path estimated_fees description
    customer_email expires_in_minutes is_test gas_sponsored
  = Create amount' merchant_wallet' currency' settlement_currency'
      payment_asset' payment_chain_id' conversion_path' estimated_fees'
      description' customer_email' expires_in_minutes' is_test' gas_sponsored'.
Proof.
  unfold Payments.create_data. cbn zeta. intros Hb.
  same_key Hb "amount". same_key Hb "merchantWallet".
  same_key Hb "currency". same_key Hb "settlementCurrency".
  same_key Hb "paymentAsset". same_key Hb "paymentChainId".
  same_key Hb "conversionPath". same_key Hb "estimatedFees".
  same_key Hb "description". same_key Hb "customerEmail".
  same_key Hb "expiresInMinutes". same_key Hb "isTest".
  same_key Hb "gasSponsored".
  congruence.
Qed.

Lemma submit_tx_data_inj
    payment_id tx_hash payer_wallet customer_email customer_name gas_sponsored
    payment_id' tx_hash' payer_wallet' customer_email' customer_name' gas_sponsored' :
  Payments.submit_tx_data payment_id tx_hash payer_wallet
    customer_email customer_name gas_sponsored
  = Payments.submit_tx_data payment_id' tx_hash' payer_wallet'
      customer_email' customer_name' gas_sponsored' ->
  payment_id = payment_id' /\ tx_hash = tx_hash' /\ payer_wallet = payer_wallet'
  /\ customer_email = customer_email' /\ customer_name = customer_name'
  /\ gas_sponsored = gas_sponsored'.
Proof.
  unfold Payments.submit_tx_data. cbn zeta. intros Hb.
  same_key Hb "paymentId". same_key Hb "txHash". same_key Hb "payerWallet".
  same_key Hb "customerEmail". same_key Hb "customerName".
  same_key Hb "gasSponsored".
  by repeat split.
Qed.

Lemma fail_data_inj payment_id reason payment_id' reason' :
  Payments.fail_data payment_id reason = Payments.fail_data payment_id' reason' ->
  payment_id = payment_id' /\ reason = reason'.
Proof.
  unfold Payments.fail_data. cbn zeta. intros Hb.
  same_key Hb "paymentId". same_key Hb "reason". by split.
Qed.

Lemma expire_data_inj payment_id payment_id' :
  Payments.expire_data payment_id = Payments.expire_data payment_id' ->
  payment_id = payment_id'.
Proof.
  unfold Payments.expire_data. intros Hb. by same_key Hb "paymentId".
Qed.

(** X3: the request determines the call.  Two invocations that hand the
    same request to the client are the same method applied to the same
    arguments: no two methods share a route, and a body keeps every
    argument it was built from. *)
Theorem issued_inj (i j : invocation) : issued i = issued j -> i = j.
Proof.
  intros H. apply (f_equal head) in H.
  destruct i, j;
    rewrite ?issued_create, ?issued_retrieve, ?issued_submit_tx,
      ?issued_confirm, ?issued_fail, ?issued_expire in H;
    cbn [head] in H;
    pose proof (f_equal (fmap path) H) as Hpath;
    pose proof (f_equal (fmap method) H) as Hmethod;
    pose proof (f_equal (fmap data) H) as Hdata;
    cbn [fmap option_fmap option_map path method data] in Hpath, Hmethod, Hdata;
    clear H;
    try discriminate Hpath; try discriminate Hmethod;
    apply (inj Some) in Hpath; apply (inj Some) in Hdata;
    try apply (inj Some) in Hdata.
  - by apply create_data_inj.
  - apply (inj (String.app _)) in Hpath. by subst.
  - apply submit_tx_data_inj in Hdata as (-> & -> & -> & -> & -> & ->). done.
  - apply submit_tx_data_inj in Hdata as (-> & -> & -> & -> & -> & ->). done.
  - apply fail_data_inj in Hdata as (-> & ->). done.
  - apply expire_data_inj in Hdata as ->. done.
Qed.

Lemma issued_inj_witness :
  SubmitTx (F:=option) "pay_1" "0xhash" "0xpayer" None None None
  = SubmitTx "pay_1" "0xhash" "0xpayer" None None None.
Proof.
  apply (issued_inj (SubmitTx "pay_1" "0xhash" "0xpayer" None None None)
                    (SubmitTx "pay_1" "0xhash" "0xpayer" None None None)).
  reflexivity.
Defined.

(** ** Routes *)

(** X4: every request goes to a path under /api/payments/.  [retrieve]
    passes the path alone and the identifier is all that follows the
    prefix; every other method passes the method POST and a body, to a
    path that does not depend on its arguments. *)
Theorem requests_under_api_payments (i : invocation) (c : Call) :
  c ∈ issued i ->
  exists rest,
    path c = "/api/payments/" ++ rest
    /\ match i with
       | Retrieve payment_id =>
           rest = payment_id /\ method c = None /\ data c = None
       | Create _ _ _ _ _ _ _ _ _ _ _ _ _ =>
           rest = "create" /\ method c = Some "POST" /\ is_Some (data c)
       | SubmitTx _ _ _ _ _ _ =>
           rest = "submit-tx" /\ method c = Some "POST" /\ is_Some (data c)
       | Confirm _ _ _ _ _ _ =>
           rest = "confirm" /\ method c = Some "POST" /\ is_Some (data c)
       | Fail _ _ =>
           rest = "fail" /\ method c = Some "POST" /\ is_Some (data c)
       | Expire _ =>
           rest = "expire" /\ method c = Some "POST" /\ is_Some (data c)
       end.
Proof.
  intros Hc.
  destruct i;
    rewrite ?issued_create, ?issued_retrieve, ?issued_submit_tx,
      ?issued_confirm, ?issued_fail, ?issued_expire in Hc;
    apply list_elem_of_singleton in Hc as ->; cbn [path method data];
    eexists; (split; [reflexivity|]); by repeat split.
Qed.

Lemma requests_under_api_payments_witness :
  exists rest,
    "/api/payments/pay_1" = "/api/payments/" ++ rest
    /\ rest = "pay_1" /\ @None string = None /\ @None body = None.
Proof.
  apply (requests_under_api_payments (Retrieve "pay_1")
           (mkCall "/api/payments/pay_1" None None)).
  rewrite issued_retrieve. apply list_elem_of_here.
Defined.

(** ** expire *)

(** X5: [expire(payment_id)] POSTs the one-key dict of paymentId to
    /api/payments/expire.  [fail(payment_id)] without a reason sends the
    very same body: the two requests differ in the path alone, and they
    do differ. *)
Theorem expire_like_fail_without_reason (payment_id : string) :
  let b : body := {[ "paymentId" := PyStr payment_id ]} in
  issued (Expire payment_id) = [ mkCall "/api/payments/expire" (Some "POST") (Some b) ]
  /\ issued (Fail payment_id None) = [ mkCall "/api/payments/fail" (Some "POST") (Some b) ]
  /\ issued (Expire payment_id) <> issued (Fail payment_id None).
Proof.
  cbn zeta. rewrite issued_expire, issued_fail.
  split; [reflexivity|]. split; [reflexivity|].
  intros H. apply (f_equal (fun l => path <$> head l)) in H. discriminate H.
Qed.


(** * The scripts *)

(** ** example.py *)

Section example_facts.
Context {W E V : Type} `{PyError E}.
Context (py_str : V -> string).
Context (client : ArcPayClient W E (gmap string V)).

Lemma example_request_data :
  Payments.create_data "100.00" "0x742d35Cc6634C0532925a3b844Bc9e7595f0bEb"
    (Some "USDC") None None None None None
    (Some "Example payment") (Some "customer@example.com")
    (Some 30%Z) None None
  = list_to_map
      [ ("amount", PyStr "100.00");
        ("merchantWallet", PyStr "0x742d35Cc6634C0532925a3b844Bc9e7595f0bEb");
        ("currency", PyStr "USDC");
        ("description", PyStr "Example payment");
        ("customerEmail", PyStr "customer@example.com");
        ("expiresInMinutes", PyInt 30) ].
Proof.
  pose proof
    (data_is_wire_fields
       (Create "100.00" "0x742d35Cc6634C0532925a3b844Bc9e7595f0bEb"
          (Some "USDC") None None None None None
          (Some "Example payment") (Some "customer@example.com")
          (Some 30%Z) None None)) as Hd.
  cbv beta iota in Hd. rewrite Hd. f_equal.
Qed.

(** What example 1 does, by the outcome of its one request. *)
Lemma example_run (s : console W) :
  example_create_payment py_str client s =
    let banner := (stdout s ++ [ "Creating a payment..." ])%list in
    match perform client example_request (world s) with
    | (Returned payment, w') =>
        (Returned (), Console (banner ++ example_lines py_str payment)%list w')
    | (Raised e, w') =>
        if derives_from_Exception e
        then (Returned (),
              Console (banner ++ [ ("Error creating payment: " ++ error_str e)%string ])%list w')
        else (Raised (OutsideError e), Console banner w')
    end.
Proof.
  unfold example_create_payment, Payments.create, perform, example_request.
  rewrite example_request_data. cbn [path method data].
  unfold mbind, M_bind, mret, M_ret, try_except_Exception, print, getitem,
    example_lines, request, on_console, request.
  cbn [stdout world].
  destruct (client _ _ _ (world s)) as [[payment|e] w']; cbn.
  - destruct (payment !! "id") as [id|]; cbn;
      [destruct (payment !! "checkout_url") as [url|]; cbn;
        [destruct (payment !! "status") as [st|]; cbn|]|];
      by rewrite <-?(assoc_L (++)).
  - by destruct (derives_from_Exception e).
Qed.

(** X6: example 1 lets no [Exception] escape.  It prints its banner and
    makes its request; whether the request returns or raises, the script
    returns normally, having printed at most three more lines, unless the
    request raised something [except Exception] does not catch, which
    then leaves the script as it is. *)
Theorem example_outcome (s : console W) :
  let '(r, w') := perform client example_request (world s) in
  exists lines,
    example_create_payment py_str client s
    = (match r with
       | Returned _ => Returned ()
       | Raised e =>
           if derives_from_Exception e then Returned ()
           else Raised (OutsideError e)
       end,
       Console (stdout s ++ "Creating a payment..." :: lines)%list w')
    /\ length lines <= 3
    /\ (lines = [] <-> exists e, r = Raised e /\ derives_from_Exception e = false).
Proof.
  rewrite example_run. cbn zeta.
  destruct (perform client example_request (world s)) as [[payment|e] w'].
  - exists (example_lines py_str payment).
    rewrite <-(assoc_L (++)). split; [done|].
    unfold example_lines.
    destruct (payment !! "id"), (payment !! "checkout_url"), (payment !! "status");
      cbn; (split; [lia|]); (split; [done|]); by intros (? & ? & ?).
  - destruct (derives_from_Exception e) eqn:He.
    + eexists [_]. rewrite <-(assoc_L (++)). split; [done|].
      split; [cbn; lia|]. split; [done|]. intros (e' & [= <-] & ?). congruence.
    + exists []. split; [done|]. split; [cbn; lia|]. split; [|done].
      intros _. by exists e.
Qed.

(** X7: when the request of example 1 returns, the script prints one
    line per key of the response it reads, [id], [checkout_url] and
    [status] in this order, up to the first key the response lacks; for
    that key it prints the error line instead and stops.  So a response
    without [checkout_url] is reported as an error after "Payment
    created" has been printed. *)
Theorem example_prints_until_missing_key
    (s : console W) (payment : gmap string V) (w' : W) :
  perform client example_request (world s) = (Returned payment, w') ->
  example_create_payment py_str client s
  = (Returned (),
     Console (stdout s ++ "Creating a payment..." :: example_lines py_str payment)%list w')
  /\ (payment !! "id" = None ->
      example_lines py_str payment = [ "Error creating payment: 'id'" ])
  /\ (forall id, payment !! "id" = Some id -> payment !! "checkout_url" = None ->
      example_lines py_str payment
      = [ "Payment created: " ++ py_str id;
          "Error creating payment: 'checkout_url'" ])
  /\ (forall id checkout_url status,
      payment !! "id" = Some id -> payment !! "checkout_url" = Some checkout_url ->
      payment !! "status" = Some status ->
      example_lines py_str payment
      = [ "Payment created: " ++ py_str id;
          "Checkout URL: " ++ py_str checkout_url;
          "Status: " ++ py_str status ]).
Proof.
  intros Hr. rewrite example_run, Hr. cbn zeta.
  rewrite <-(assoc_L (++)). split; [done|].
  unfold example_lines. repeat split.
  - by intros ->.
  - by intros id -> ->.
  - by intros id url st -> -> ->.
Qed.

End example_facts.

(** X8: example 1 makes exactly one request, whatever comes back: on a
    client that records its calls the record grows by the one POST to
    /api/payments/create with the six fields the script passes, also when
    the request raises or the response lacks a key. *)
Theorem example_one_request {W E V : Type} `{PyError E} (py_str : V -> string)
    (client : ArcPayClient W E (gmap string V))
    (out : list string) (log : list Call) (w : W) :
  exists r out' w',
    example_create_payment py_str (logged client) (Console out (log, w))
    = (r, Console out' ((log ++ [ example_request ])%list, w'))
    /\ exists b : body, data example_request = Some b /\ size b = 6.
Proof.
  rewrite example_run. cbn zeta. cbn [world stdout].
  unfold perform, request, logged, request. cbn [path method data example_request].
  destruct (client _ _ _ w) as [[payment|e] w']; [|destruct (derives_from_Exception e)];
    eexists _, _, _; (split; [reflexivity|]);
    (eexists; split; [reflexivity|]);
    by rewrite map_size_list_to_map by compute_done.
Qed.

Lemma example_prints_until_missing_key_witness :
  example_create_payment (fun _ : pyval => "") empty_response_client (Console [] ())
  = (Returned (), Console [ "Creating a payment..."; "Error creating payment: 'id'" ] ()).
Proof.
  apply (proj1 (example_prints_until_missing_key (fun _ : pyval => "")
                  empty_response_client (Console [] ()) ∅ () eq_refl)).
Defined.

(** ** test_arcpaykit.py *)

Section tests_facts.
Context {W E : Type} `{PyError E}.

(** One turn of the loop of [run_tests]. *)
Lemma run_loop_cons (t : test (console W) E) (tests : list (test (console W) E))
    (passed failed : nat) (s : console W) :
  run_loop (t :: tests) passed failed s =
    match run t s with
    | (Returned true, s1) =>
        run_loop tests (S passed) failed
          (Console (stdout s1 ++ [ "" ])%list (world s1))
    | (Returned false, s1) =>
        run_loop tests passed (S failed)
          (Console (stdout s1 ++ [ "" ])%list (world s1))
    | (Raised x, s1) =>
        if caught_as_Exception x
        then run_loop tests passed (S failed)
               (Console
                  (stdout s1 ++
                   [ ("[FAIL] Test " ++ name t ++ " raised exception: " ++ exc_str x)%string;
                     "" ])%list
                  (world s1))
        else (Raised x, s1)
    end.
Proof.
  cbn [run_loop].
  unfold mbind, M_bind, mret, M_ret, try_except_Exception, print.
  destruct (run t s) as [[[|]|x] s1]; cbn [stdout world]; try done.
  destruct (caught_as_Exception x); cbn [stdout world]; [|done].
  by rewrite <-(assoc_L (++)).
Qed.

Lemma run_loop_tally (tests : list (test (console W) E)) :
  Forall contained tests ->
  forall passed failed s,
  exists passed' failed' s',
    run_loop tests passed failed s = (Returned (passed', failed'), s')
    /\ passed' + failed' = passed + failed + length tests
    /\ passed <= passed' /\ failed <= failed'.
Proof.
  induction 1 as [|t tests Ht _ IH]; intros passed failed s.
  { exists passed, failed, s. cbn. split; [done|]. lia. }
  rewrite run_loop_cons.
  destruct (run t s) as [[[|]|x] s1] eqn:Hrun.
  - destruct (IH (S passed) failed (Console (stdout s1 ++ [ "" ]) (world s1)))
      as (p & f & s' & -> & ? & ? & ?).
    exists p, f, s'. split; [done|]. cbn [length]. lia.
  - destruct (IH passed (S failed) (Console (stdout s1 ++ [ "" ]) (world s1)))
      as (p & f & s' & -> & ? & ? & ?).
    exists p, f, s'. split; [done|]. cbn [length]. lia.
  - rewrite (Ht s x s1 Hrun).
    match goal with |- context [run_loop tests passed (S failed) ?s2] =>
      destruct (IH passed (S failed) s2) as (p & f & s' & -> & ? & ? & ?)
    end.
    exists p, f, s'. split; [done|]. cbn [length]. lia.
Qed.

(** The end of [run_tests], once the loop has run. *)
Lemma run_tests_on_after_loop (tests : list (test (console W) E))
    (s s' : console W) (passed failed : nat) :
  run_loop tests 0 0
    (Console (stdout s ++ [ ("Running ArcPayKit Python SDK tests..." ++ newline)%string ])%list
       (world s))
  = (Returned (passed, failed), s') ->
  run_tests_on tests s
  = (if bool_decide (0 < failed) then Raised (SystemExit 1) else Returned 0%Z,
     Console
       (stdout s' ++
        ("Results: " ++ pretty passed ++ " passed, " ++ pretty failed ++ " failed")%string
        :: (if bool_decide (0 < failed) then [] else [ "All tests passed! [OK]" ]))%list
       (world s')).
Proof.
  intros Hloop. unfold run_tests_on.
  unfold mbind at 1. unfold M_bind at 1. unfold print at 1. cbn [stdout world].
  unfold mbind at 1. unfold M_bind at 1.
  rewrite Hloop.
  unfold mbind, M_bind, mret, M_ret, print, raise. cbn [stdout world].
  case_bool_decide; cbn [stdout world]; [done|].
  by rewrite <-(assoc_L (++)).
Qed.


(** *** The three tests of the file *)

Context (ArcPay : string -> option string -> M (console W) (pyexc E) ArcPayObj).

Lemma test_import_run (s : console W) :
  test_import (E:=E) s
  = (Returned true,
     Console (stdout s ++ [ "[OK] Package imports successfully" ])%list (world s)).
Proof. reflexivity. Qed.

Lemma test_initialization_run (s : console W) :
  test_initialization ArcPay s =
    match ArcPay "test-api-key" None s with
    | (Returned arcpay, s1) =>
        match payments arcpay with
        | Some _ =>
            (Returned true,
             Console (stdout s1 ++ [ "[OK] ArcPay initializes correctly" ])%list (world s1))
        | None =>
            (Returned false,
             Console (stdout s1 ++ [ "[FAIL] Failed to initialize ArcPay: " ])%list
               (world s1))
        end
    | (Raised x, s1) =>
        if caught_as_Exception x
        then (Returned false,
              Console
                (stdout s1 ++ [ ("[FAIL] Failed to initialize ArcPay: " ++ exc_str x)%string ])%list
                (world s1))
        else (Raised x, s1)
    end.
Proof.
  unfold test_initialization.
  unfold mbind, M_bind, mret, M_ret, try_except_Exception, print, assert_, raise.
  destruct (ArcPay _ _ s) as [[arcpay|x] s1]; [|by destruct (caught_as_Exception x)].
  by destruct (payments arcpay).
Qed.

Lemma test_custom_base_url_run (s : console W) :
  test_custom_base_url ArcPay s =
    match ArcPay "test-api-key" (Some "http://localhost:3000") s with
    | (Returned arcpay, s1) =>
        match payments arcpay with
        | Some p =>
            if eq_str (client_base_url p) "http://localhost:3000"
            then (Returned true,
                  Console (stdout s1 ++ [ "[OK] Custom base URL works" ])%list (world s1))
            else (Returned false,
                  Console (stdout s1 ++ [ "[FAIL] Custom base URL test failed: " ])%list
                    (world s1))
        | None =>
            (Returned false,
             Console
               (stdout s1 ++
                [ "[FAIL] Custom base URL test failed: 'NoneType' object has no attribute 'client'" ])%list
               (world s1))
        end
    | (Raised x, s1) =>
        if caught_as_Exception x
        then (Returned false,
              Console
                (stdout s1 ++ [ ("[FAIL] Custom base URL test failed: " ++ exc_str x)%string ])%list
                (world s1))
        else (Raised x, s1)
    end.
Proof.
  unfold test_custom_base_url, payments_client_base_url.
  unfold mbind, M_bind, mret, M_ret, try_except_Exception, print, assert_, raise.
  destruct (ArcPay _ _ s) as [[arcpay|x] s1]; [|by destruct (caught_as_Exception x)].
  destruct (payments arcpay) as [p|]; [|done].
  by destruct (eq_str (client_base_url p) "http://localhost:3000").
Qed.

(** X10: what two of the tests accept.  [test_initialization] returns
    [True] exactly when [ArcPay("test-api-key")] returns an object whose
    [payments] is not [None]; [test_custom_base_url] returns [True]
    exactly when the constructor, given the base URL, returns an object
    whose [payments.client.base_url] is that very string.  An object
    whose [payments] is [None] makes [test_custom_base_url] return
    [False], through the [AttributeError] it catches, not raise. *)
Theorem tests_accept (s : console W) :
  ((exists s', test_initialization ArcPay s = (Returned true, s')) <->
   (exists arcpay s1,
      ArcPay "test-api-key" None s = (Returned arcpay, s1)
      /\ payments arcpay <> None))
  /\ ((exists s', test_custom_base_url ArcPay s = (Returned true, s')) <->
      (exists arcpay p s1,
         ArcPay "test-api-key" (Some "http://localhost:3000") s = (Returned arcpay, s1)
         /\ payments arcpay = Some p
         /\ client_base_url p = PyStr "http://localhost:3000"))
  /\ (forall arcpay s1,
        ArcPay "test-api-key" (Some "http://localhost:3000") s = (Returned arcpay, s1) ->
        payments arcpay = None ->
        test_custom_base_url ArcPay s
        = (Returned false,
           Console
             (stdout s1 ++
              [ "[FAIL] Custom base URL test failed: 'NoneType' object has no attribute 'client'" ])%list
             (world s1))).
Proof.
  rewrite test_initialization_run, test_custom_base_url_run.
  split; [|split].
  - destruct (ArcPay _ None s) as [[arcpay|x] s1].
    + destruct (payments arcpay) as [p|] eqn:Hp; split.
      * intros _. exists arcpay, s1. by rewrite Hp.
      * intros _. by eexists.
      * by intros [? [=]].
      * intros (a & s2 & [= <- <-] & Ha). by rewrite Hp in Ha.
    + split; [|by intros (? & ? & [=] & _)].
      destruct (caught_as_Exception x); by intros [? [=]].
  - destruct (ArcPay _ (Some _) s) as [[arcpay|x] s1].
    + destruct (payments arcpay) as [p|] eqn:Hp.
      * destruct (client_base_url p) as [|u| |] eqn:Hu; cbn [eq_str];
          try (split; [by intros [? [=]]|];
               intros (a & p' & s2 & [= <- <-] & Ha & Hb);
               rewrite Hp in Ha; injection Ha as <-; congruence).
        case_bool_decide as Heq; split.
        -- intros _. exists arcpay, p, s1. by rewrite Hu, Heq.
        -- intros _. by eexists.
        -- by intros [? [=]].
        -- intros (a & p' & s2 & [= <- <-] & Ha & Hb).
           rewrite Hp in Ha. injection Ha as <-. congruence.
      * split; [by intros [? [=]]|].
        intros (a & p' & s2 & [= <- <-] & Ha & _). by rewrite Hp in Ha.
    + split; [|by intros (? & ? & ? & [=] & _)].
      destruct (caught_as_Exception x); by intros [? [=]].
  - intros arcpay s1 -> Hp. by rewrite Hp.
Qed.

Lemma test_initialization_contained :
  (forall k b s x s', ArcPay k b s = (Raised x, s') -> caught_as_Exception x = true) ->
  contained (Test "test_initialization" (test_initialization ArcPay)).
Proof.
  intros HArcPay s x s'. cbn [run]. rewrite test_initialization_run.
  destruct (ArcPay _ _ s) as [[arcpay|y] s1] eqn:Hc.
  - by destruct (payments arcpay).
  - by rewrite (HArcPay _ _ _ _ _ Hc).
Qed.

Lemma test_custom_base_url_contained :
  (forall k b s x s', ArcPay k b s = (Raised x, s') -> caught_as_Exception x = true) ->
  contained (Test "test_custom_base_url" (test_custom_base_url ArcPay)).
Proof.
  intros HArcPay s x s'. cbn [run]. rewrite test_custom_base_url_run.
  destruct (ArcPay _ _ s) as [[arcpay|y] s1] eqn:Hc.
  - destruct (payments arcpay) as [p|]; [|done].
    by destruct (eq_str _ _).
  - by rewrite (HArcPay _ _ _ _ _ Hc).
Qed.

(** X11: when the constructor [ArcPay] raises nothing [except Exception]
    lets through, [run_tests] counts all three tests, at least one of
    them as passed, prints the tally, and either returns 0 or exits with
    status 1: no error of the constructor reaches the caller. *)
Theorem run_tests_verdict (s : console W) :
  (forall k b s x s', ArcPay k b s = (Raised x, s') -> caught_as_Exception x = true) ->
  exists passed failed out w',
    passed + failed = 3
    /\ 1 <= passed
    /\ run_tests ArcPay s
       = (if bool_decide (0 < failed) then Raised (SystemExit 1) else Returned 0%Z,
          Console
            (out ++
             ("Results: " ++ pretty passed ++ " passed, " ++ pretty failed ++ " failed")%string
             :: (if bool_decide (0 < failed) then [] else [ "All tests passed! [OK]" ]))%list
            w').
Proof.
  intros HArcPay. unfold run_tests.
  match goal with |- context [run_tests_on (?t1 :: ?rest) s] =>
    assert (Forall contained rest) as Hrest
      by (repeat constructor;
          [by apply test_initialization_contained
          |by apply test_custom_base_url_contained]);
    pose proof (run_loop_cons t1 rest 0 0
                  (Console (stdout s ++ [ ("Running ArcPayKit Python SDK tests..." ++ newline)%string ])%list
                     (world s))) as Hfirst;
    cbn [run] in Hfirst; rewrite test_import_run in Hfirst;
    match type of Hfirst with _ = run_loop rest 1 0 ?s1 =>
      destruct (run_loop_tally rest Hrest 1 0 s1)
        as (p & f & s' & Hloop & Hsum & Hp & _)
    end
  end.
  rewrite Hloop in Hfirst.
  exists p, f, (stdout s'), (world s'). cbn [length] in Hsum.
  split; [lia|]. split; [lia|].
  by apply run_tests_on_after_loop.
Qed.

End tests_facts.


Lemma run_tests_verdict_witness :
  exists passed failed out w',
    passed + failed = 3
    /\ 1 <= passed
    /\ run_tests keeping_ArcPay (Console [] ())
       = (if bool_decide (0 < failed) then Raised (SystemExit 1) else Returned 0%Z,
          Console
            (out ++
             ("Results: " ++ pretty passed ++ " passed, " ++ pretty failed ++ " failed")%string
             :: (if bool_decide (0 < failed) then [] else [ "All tests passed! [OK]" ]))%list
            w').
Proof.
  apply (run_tests_verdict keeping_ArcPay (Console [] ())).
  intros k b s x s' Hrun. discriminate Hrun.
Defined.

Example run_tests_keeping_ArcPay :
  run_tests keeping_ArcPay (Console [] ())
  = (Returned 0%Z,
     Console
       [ "Running ArcPayKit Python SDK tests..." ++ newline;
         "[OK] Package imports successfully"; "";
         "[OK] ArcPay initializes correctly"; "";
         "[OK] Custom base URL works"; "";
         "Results: 3 passed, 0 failed";
         "All tests passed! [OK]" ]
       ()).
Proof. reflexivity. Qed.

Lemma tests_accept_witness :
  exists s', test_initialization keeping_ArcPay (Console [] ()) = (Returned true, s').
Proof.
  apply (proj2 (proj1 (tests_accept keeping_ArcPay (Console [] ())))).
  eexists _, _. split; [reflexivity|]. discriminate.
Defined.


(** ** test_pypi_install.py *)

Lemma test_pypi_install_run {W E : Type} `{PyError E}
    (ArcPay : string -> option string -> M (console W) (pyexc E) ArcPayObj)
    (s : console W) :
  test_pypi_install ArcPay s =
    match ArcPay "test-api-key" None
            (Console (stdout s ++ [ "[OK] ArcPayKit installed from PyPI!";
                                    "[OK] Package imports successfully" ])%list (world s))
    with
    | (Raised x, s1) => (Raised x, s1)
    | (Returned arcpay, s1) =>
        match payments arcpay with
        | None =>
            (Raised (AttributeError "'NoneType' object has no attribute 'client'"), s1)
        | Some p =>
            (Returned (),
             Console
               (stdout s1 ++
                [ ("[OK] SDK initialized! Base URL: " ++ str_of (client_base_url p))%string;
                  "[OK] Payments object created";
                  (newline ++ "[SUCCESS] ArcPayKit Python SDK is working correctly!")%string;
                  "Package is now available on PyPI: https://pypi.org/project/arcpaykit/" ])%list
               (world s1))
        end
    end.
Proof.
  unfold test_pypi_install, payments_client_base_url.
  unfold mbind, M_bind, mret, M_ret, print, assert_, raise.
  cbn [stdout world]. rewrite <-(assoc_L (++)). cbn [app].
  destruct (ArcPay _ _ _) as [[arcpay|x] s1]; [|reflexivity].
  destruct (payments arcpay) as [p|]; [|reflexivity].
  rewrite bool_decide_true by done. unfold mret, M_ret.
  cbn [stdout world]. by rewrite <-!(assoc_L (++)).
Qed.

(** X12: the script has no handler, so an error of the constructor
    leaves it unchanged after the two lines printed before; an object
    whose [payments] is [None] stops the script with the
    [AttributeError] of line 10, before the [assert] of line 13 is
    reached; otherwise the script runs to its end.  So the [assert]
    never fails: the script raises [AssertionError] only if the
    constructor does. *)
Theorem test_pypi_install_outcome {W E : Type} `{PyError E}
    (ArcPay : string -> option string -> M (console W) (pyexc E) ArcPayObj)
    (s : console W) :
  test_pypi_install ArcPay s =
    match ArcPay "test-api-key" None
            (Console (stdout s ++ [ "[OK] ArcPayKit installed from PyPI!";
                                    "[OK] Package imports successfully" ])%list (world s))
    with
    | (Raised x, s1) => (Raised x, s1)
    | (Returned arcpay, s1) =>
        match payments arcpay with
        | None =>
            (Raised (AttributeError "'NoneType' object has no attribute 'client'"), s1)
        | Some p =>
            (Returned (),
             Console
               (stdout s1 ++
                [ ("[OK] SDK initialized! Base URL: " ++ str_of (client_base_url p))%string;
                  "[OK] Payments object created";
                  (newline ++ "[SUCCESS] ArcPayKit Python SDK is working correctly!")%string;
                  "Package is now available on PyPI: https://pypi.org/project/arcpaykit/" ])%list
               (world s1))
        end
    end
  /\ ((forall s1,
        ArcPay "test-api-key" None
          (Console (stdout s ++ [ "[OK] ArcPayKit installed from PyPI!";
                                  "[OK] Package imports successfully" ])%list (world s))
        <> (Raised AssertionError, s1)) ->
      forall s', test_pypi_install ArcPay s <> (Raised AssertionError, s')).
Proof.
  split; [apply test_pypi_install_run|].
  intros HArcPay s'. rewrite test_pypi_install_run.
  destruct (ArcPay _ _ _) as [[arcpay|x] s1] eqn:Hc.
  - by destruct (payments arcpay).
  - intros [= -> <-]. by apply (HArcPay s1).
Qed.

Lemma test_pypi_install_outcome_witness :
  test_pypi_install keeping_ArcPay (Console [] ())
  <> (Raised AssertionError, Console [] ()).
Proof.
  apply (proj2 (test_pypi_install_outcome keeping_ArcPay (Console [] ()))).
  intros s1. discriminate.
Defined.

Example test_pypi_install_keeping_ArcPay :
  test_pypi_install keeping_ArcPay (Console [] ())
  = (Returned (),
     Console
       [ "[OK] ArcPayKit installed from PyPI!";
         "[OK] Package imports successfully";
         "[OK] SDK initialized! Base URL: None";
         "[OK] Payments object created";
         newline ++ "[SUCCESS] ArcPayKit Python SDK is working correctly!";
         "Package is now available on PyPI: https://pypi.org/project/arcpaykit/" ]
       ()).
Proof. reflexivity. Qed.
